(** * Verification of the object-store-gateway attribute builders

    Shallow embedding of [attribute_consts.rs], [attribute_keys.rs],
    [attribute_event_types.rs], [attribute_generator.rs] (the
    [BTreeMap]-based [OsGatewayAttributeGenerator]) and [lib.rs] (the
    [HashMap]-based [OsGatewayEventAttributes]).

    - A Rust [String] is a Rocq [string]; Rust's [Ord] on [String] is the
      byte-wise lexicographic order, which is [String.compare].
    - A [BTreeMap<String, String>] is a strictly sorted association list;
      [insert] walks it in key order and either inserts a new entry or
      overwrites the value of the equal key; [into_iter] yields the entries
      in the stored (ascending) order.
    - A [HashMap<String, String>] is a [gmap string string]; its iteration
      order is unspecified, so [into_iter] is a relation: any permutation of
      the map's entries is a possible output. *)

From Stdlib Require Import Sorting.Sorted.
From stdpp Require Import base gmap strings list.

Open Scope string_scope.

(** ** attribute_consts.rs *)

Definition EVENT_TYPE_KEY : string := "object_store_gateway_event_type".
Definition SCOPE_ADDRESS_KEY : string := "object_store_gateway_scope_address".
Definition TARGET_ACCOUNT_KEY : string := "object_store_gateway_target_account_address".
Definition ACCESS_GRANT_ID_KEY : string := "object_store_gateway_access_grant_id".
Definition ACCESS_GRANT_VALUE : string := "access_grant".
Definition ACCESS_REVOKE_VALUE : string := "access_revoke".

(** ** attribute_event_types.rs *)

Record OsGatewayEventTypes := {
  access_grant : string;
  access_revoke : string;
}.

Definition OS_GATEWAY_EVENT_TYPES : OsGatewayEventTypes := {|
  access_grant := "access_grant";
  access_revoke := "access_revoke";
|}.

(** ** attribute_keys.rs *)

Record OsGatewayKeys := {
  event_type : string;
  scope_address : string;
  target_account : string;
  access_grant_id : string;
}.

Definition OS_GATEWAY_KEYS : OsGatewayKeys := {|
  event_type := "object_store_gateway_event_type";
  scope_address := "object_store_gateway_scope_address";
  target_account := "object_store_gateway_target_account_address";
  access_grant_id := "object_store_gateway_access_grant_id";
|}.

(** ** std::collections::BTreeMap<String, String> *)

Module BTreeMap.

Definition t := list (string * string).

Definition new : t := [].

(** [BTreeMap::insert]: on an existing key the stored key is kept and the
    value replaced. *)
Fixpoint insert (k v : string) (m : t) : t :=
  match m with
  | [] => [(k, v)]
  | (k', v') :: rest =>
      match String.compare k k' with
      | Lt => (k, v) :: m
      | Eq => (k', v) :: rest
      | Gt => (k', v') :: insert k v rest
      end
  end.

Fixpoint get (k : string) (m : t) : option string :=
  match m with
  | [] => None
  | (k', v') :: rest => if String.eqb k k' then Some v' else get k rest
  end.

(** [BTreeMap::into_iter] yields the entries in ascending key order. *)
Definition into_iter (m : t) : list (string * string) := m.

Definition len (m : t) : nat := length m.

End BTreeMap.

(** ** attribute_generator.rs *)

Record OsGatewayAttributeGenerator := mkGenerator {
  attributes : BTreeMap.t;
}.

Module Generator.

Definition new : OsGatewayAttributeGenerator := mkGenerator BTreeMap.new.

Definition insert_attribute (self : OsGatewayAttributeGenerator) (key value : string)
  : OsGatewayAttributeGenerator :=
  mkGenerator (BTreeMap.insert key value (attributes self)).

Definition with_access_grant_id (self : OsGatewayAttributeGenerator) (access_grant_id : string) :=
  insert_attribute self ACCESS_GRANT_ID_KEY access_grant_id.

Definition with_event_type (self : OsGatewayAttributeGenerator) (event_type : string) :=
  insert_attribute self EVENT_TYPE_KEY event_type.

Definition with_scope_address (self : OsGatewayAttributeGenerator) (scope_address : string) :=
  insert_attribute self SCOPE_ADDRESS_KEY scope_address.

Definition with_target_account_address (self : OsGatewayAttributeGenerator)
    (target_account_address : string) :=
  insert_attribute self TARGET_ACCOUNT_KEY target_account_address.

Definition access_grant (scope_address target_account_address : string) :=
  with_target_account_address
    (with_scope_address (with_event_type new ACCESS_GRANT_VALUE) scope_address)
    target_account_address.

Definition access_revoke (scope_address target_account_address : string) :=
  with_target_account_address
    (with_scope_address (with_event_type new ACCESS_REVOKE_VALUE) scope_address)
    target_account_address.

(** [impl IntoIterator for OsGatewayAttributeGenerator]: the map's
    entries collected into a [Vec] and iterated. *)
Definition into_iter (self : OsGatewayAttributeGenerator) : list (string * string) :=
  BTreeMap.into_iter (attributes self).

End Generator.

(** ** lib.rs: the [HashMap]-based [OsGatewayEventAttributes] *)

Record OsGatewayEventAttributes := mkEventAttributes {
  hattributes : gmap string string;
}.

Module EventAttributes.

Definition new : OsGatewayEventAttributes := mkEventAttributes ∅.

Definition insert_attribute (self : OsGatewayEventAttributes) (key value : string)
  : OsGatewayEventAttributes :=
  mkEventAttributes (<[key := value]> (hattributes self)).

Definition with_scope_address (self : OsGatewayEventAttributes) (scope_address : string) :=
  insert_attribute self SCOPE_ADDRESS_KEY scope_address.

Definition with_target_account_address (self : OsGatewayEventAttributes)
    (target_account_address : string) :=
  insert_attribute self TARGET_ACCOUNT_KEY target_account_address.

Definition with_access_grant_id (self : OsGatewayEventAttributes) (access_grant_id : string) :=
  insert_attribute self ACCESS_GRANT_ID_KEY access_grant_id.

Definition access_grant (scope_address target_account_address : string) :=
  with_target_account_address
    (with_scope_address (insert_attribute new EVENT_TYPE_KEY ACCESS_GRANT_VALUE) scope_address)
    target_account_address.

Definition access_revoke (scope_address target_account_address : string) :=
  with_target_account_address
    (with_scope_address (insert_attribute new EVENT_TYPE_KEY ACCESS_REVOKE_VALUE) scope_address)
    target_account_address.

(** [impl IntoIterator for OsGatewayEventAttributes]: a [HashMap] is
    iterated in an unspecified order, so every permutation of its entries
    is a possible output. *)
Definition into_iter (self : OsGatewayEventAttributes) (out : list (string * string)) : Prop :=
  out ≡ₚ map_to_list (hattributes self).

End EventAttributes.

(** ** Public call sequences

    A builder is obtained only through [access_grant] or [access_revoke]
    ([new] is private) and then updated by [with_access_grant_id]. *)

Inductive EventKind := AccessGrant | AccessRevoke.

Definition construct (kind : EventKind) (scope target : string) : OsGatewayAttributeGenerator :=
  match kind with
  | AccessGrant => Generator.access_grant scope target
  | AccessRevoke => Generator.access_revoke scope target
  end.

(** [construct] followed by [with_access_grant_id] for each id in turn. *)
Definition build (kind : EventKind) (scope target : string) (ids : list string)
  : OsGatewayAttributeGenerator :=
  fold_left Generator.with_access_grant_id ids (construct kind scope target).

(** The builder for one logical input: an optional access grant id. *)
Definition generate (kind : EventKind) (scope target : string) (oid : option string)
  : OsGatewayAttributeGenerator :=
  match oid with
  | None => construct kind scope target
  | Some id => Generator.with_access_grant_id (construct kind scope target) id
  end.

Definition construct_lib (kind : EventKind) (scope target : string) : OsGatewayEventAttributes :=
  match kind with
  | AccessGrant => EventAttributes.access_grant scope target
  | AccessRevoke => EventAttributes.access_revoke scope target
  end.

Definition build_lib (kind : EventKind) (scope target : string) (ids : list string)
  : OsGatewayEventAttributes :=
  fold_left EventAttributes.with_access_grant_id ids (construct_lib kind scope target).

Inductive reachable : OsGatewayAttributeGenerator -> Prop :=
  | reachable_grant scope target : reachable (Generator.access_grant scope target)
  | reachable_revoke scope target : reachable (Generator.access_revoke scope target)
  | reachable_with_id g id : reachable g -> reachable (Generator.with_access_grant_id g id).

(** The last id of a call sequence, if any. *)
Fixpoint last_id (ids : list string) : option string :=
  match ids with
  | [] => None
  | [id] => Some id
  | _ :: rest => last_id rest
  end.

(** Strict byte-wise lexicographic order on keys, the [Ord] of [String]. *)
Definition key_lt (a b : string) : Prop := String.compare a b = Lt.

(** The four key literals and the two event-type literals. *)
Definition os_gateway_key (k : string) : Prop :=
  k = EVENT_TYPE_KEY \/ k = SCOPE_ADDRESS_KEY \/ k = TARGET_ACCOUNT_KEY \/ k = ACCESS_GRANT_ID_KEY.

Definition event_type_value (v : string) : Prop :=
  v = ACCESS_GRANT_VALUE \/ v = ACCESS_REVOKE_VALUE.

(** ** General lemmas on the [BTreeMap] model *)

Lemma string_compare_refl (s : string) : String.compare s s = Eq.
Proof.
  pose proof (String.compare_antisym s s) as H.
  destruct (String.compare s s); simpl in H; congruence.
Qed.

Lemma string_compare_Gt (a b : string) : String.compare a b = Gt -> key_lt b a.
Proof.
  unfold key_lt. intros H. rewrite String.compare_antisym, H. reflexivity.
Qed.

Lemma btree_insert_insert (k v1 v2 : string) (m : BTreeMap.t) :
  BTreeMap.insert k v2 (BTreeMap.insert k v1 m) = BTreeMap.insert k v2 m.
Proof.
  induction m as [|[k' v'] rest IH]; cbn [BTreeMap.insert].
  - rewrite string_compare_refl. reflexivity.
  - destruct (String.compare k k') eqn:Hc; cbn [BTreeMap.insert].
    + rewrite Hc. reflexivity.
    + rewrite string_compare_refl. reflexivity.
    + rewrite Hc, IH. reflexivity.
Qed.

Lemma btree_insert_get (k k' v : string) (m : BTreeMap.t) :
  BTreeMap.get k' (BTreeMap.insert k v m) =
  if String.eqb k' k then Some v else BTreeMap.get k' m.
Proof.
  induction m as [|[k0 v0] rest IH]; cbn [BTreeMap.insert BTreeMap.get].
  - reflexivity.
  - destruct (String.compare k k0) eqn:Hc; cbn [BTreeMap.insert BTreeMap.get].
    + apply String.compare_eq_iff in Hc. subst k0.
      destruct (String.eqb k' k); reflexivity.
    + reflexivity.
    + rewrite IH. destruct (String.eqb_spec k' k), (String.eqb_spec k' k0); subst; try reflexivity.
      rewrite string_compare_refl in Hc. discriminate.
Qed.

Lemma btree_insert_sorted (k v : string) (m : BTreeMap.t) :
  Sorted key_lt (map fst m) -> Sorted key_lt (map fst (BTreeMap.insert k v m)).
Proof.
  induction m as [|[k0 v0] rest IH]; cbn [BTreeMap.insert map fst]; intros Hs.
  - repeat constructor.
  - destruct (String.compare k k0) eqn:Hc; cbn [BTreeMap.insert map fst].
    + apply String.compare_eq_iff in Hc. subst k0. exact Hs.
    + constructor; [exact Hs | constructor; exact Hc].
    + apply Sorted_inv in Hs as [Hrest Hhd].
      constructor; [exact (IH Hrest)|].
      destruct rest as [|[k1 v1] rest']; cbn [BTreeMap.insert map fst] in *.
      * constructor. apply string_compare_Gt. exact Hc.
      * destruct (String.compare k k1); cbn [map fst];
          constructor; try (apply string_compare_Gt; exact Hc);
          inversion Hhd; assumption.
Qed.

(** ** The builder's output for every public call sequence *)

Definition event_value (kind : EventKind) : string :=
  match kind with
  | AccessGrant => ACCESS_GRANT_VALUE
  | AccessRevoke => ACCESS_REVOKE_VALUE
  end.

Lemma with_access_grant_id_twice (g : OsGatewayAttributeGenerator) (id1 id2 : string) :
  Generator.with_access_grant_id (Generator.with_access_grant_id g id1) id2 =
  Generator.with_access_grant_id g id2.
Proof.
  unfold Generator.with_access_grant_id, Generator.insert_attribute. cbn [attributes].
  rewrite btree_insert_insert. reflexivity.
Qed.

Lemma last_id_cons (id : string) (ids : list string) :
  last_id (id :: ids) = match last_id ids with None => Some id | Some i => Some i end.
Proof.
  revert id. induction ids as [|id' ids IH]; intros id; [reflexivity|].
  change (last_id (id :: id' :: ids)) with (last_id (id' :: ids)).
  rewrite IH. destruct (last_id ids); reflexivity.
Qed.

Lemma fold_with_access_grant_id (ids : list string) (g : OsGatewayAttributeGenerator) :
  fold_left Generator.with_access_grant_id ids g =
  match last_id ids with
  | None => g
  | Some id => Generator.with_access_grant_id g id
  end.
Proof.
  revert g. induction ids as [|id ids IH]; intros g; [reflexivity|].
  cbn [fold_left]. rewrite IH, last_id_cons.
  destruct (last_id ids); [apply with_access_grant_id_twice | reflexivity].
Qed.

Lemma build_generate (kind : EventKind) (scope target : string) (ids : list string) :
  build kind scope target ids = generate kind scope target (last_id ids).
Proof.
  unfold build, generate. rewrite fold_with_access_grant_id. reflexivity.
Qed.

Lemma generate_into_iter (kind : EventKind) (scope target : string) (oid : option string) :
  Generator.into_iter (generate kind scope target oid) =
  (match oid with Some id => [(ACCESS_GRANT_ID_KEY, id)] | None => [] end ++
   [(EVENT_TYPE_KEY, event_value kind); (SCOPE_ADDRESS_KEY, scope); (TARGET_ACCOUNT_KEY, target)])%list.
Proof. destruct kind, oid; reflexivity. Qed.

Lemma last_id_None (ids : list string) : last_id ids = None <-> ids = [].
Proof.
  split; [|intros ->; reflexivity].
  destruct ids as [|id ids]; [reflexivity|].
  rewrite last_id_cons. destruct (last_id ids); discriminate.
Qed.

Lemma reachable_build (g : OsGatewayAttributeGenerator) :
  reachable g <-> exists kind scope target ids, g = build kind scope target ids.
Proof.
  split.
  - induction 1 as [scope target|scope target|g id _ IH].
    + exists AccessGrant, scope, target, []. reflexivity.
    + exists AccessRevoke, scope, target, []. reflexivity.
    + destruct IH as (kind & scope & target & ids & ->).
      exists kind, scope, target, (ids ++ [id])%list.
      unfold build. rewrite fold_left_app. reflexivity.
  - intros (kind & scope & target & ids & ->). unfold build.
    assert (Hc : reachable (construct kind scope target)) by (destruct kind; constructor).
    revert Hc. generalize (construct kind scope target).
    induction ids as [|id ids IH]; intros g Hg; [exact Hg|].
    apply IH. constructor. exact Hg.
Qed.

(** ** Correspondence of the [HashMap] and [BTreeMap] builders *)

Lemma list_to_map_insert (k v : string) (m : BTreeMap.t) :
  (list_to_map (BTreeMap.insert k v m) : gmap string string) = <[k := v]> (list_to_map m).
Proof.
  induction m as [|[k0 v0] rest IH]; cbn [BTreeMap.insert]; [reflexivity|].
  destruct (String.compare k k0) eqn:Hc.
  - apply String.compare_eq_iff in Hc. subst k0.
    rewrite !list_to_map_cons. rewrite insert_insert_eq. reflexivity.
  - reflexivity.
  - rewrite !list_to_map_cons, IH. apply insert_insert_ne.
    intros ->. rewrite string_compare_refl in Hc. discriminate.
Qed.

Lemma build_lib_build (kind : EventKind) (scope target : string) (ids : list string) :
  hattributes (build_lib kind scope target ids) =
  list_to_map (attributes (build kind scope target ids)).
Proof.
  unfold build_lib, build.
  assert (Hc : hattributes (construct_lib kind scope target) =
               list_to_map (attributes (construct kind scope target))).
  { destruct kind; cbn [construct_lib construct hattributes attributes
      EventAttributes.access_grant EventAttributes.access_revoke
      EventAttributes.with_target_account_address EventAttributes.with_scope_address
      EventAttributes.insert_attribute EventAttributes.new
      Generator.access_grant Generator.access_revoke
      Generator.with_target_account_address Generator.with_scope_address
      Generator.with_event_type Generator.insert_attribute Generator.new];
    rewrite !list_to_map_insert; reflexivity. }
  revert Hc. generalize (construct_lib kind scope target) (construct kind scope target).
  induction ids as [|id ids IH]; intros e g Hc; [exact Hc|].
  apply IH. cbn. rewrite list_to_map_insert, Hc. reflexivity.
Qed.

Lemma build_keys_NoDup (kind : EventKind) (scope target : string) (ids : list string) :
  NoDup (map fst (Generator.into_iter (build kind scope target ids))).
Proof.
  rewrite build_generate, generate_into_iter.
  destruct (last_id ids); apply (bool_decide_unpack _); vm_compute; exact I.
Qed.

Lemma btree_insert_filter (k v : string) (m : BTreeMap.t) :
  List.filter (fun kv : string * string => negb (String.eqb kv.1 k)) (BTreeMap.insert k v m) =
  List.filter (fun kv : string * string => negb (String.eqb kv.1 k)) m.
Proof.
  induction m as [|[k0 v0] rest IH]; cbn [BTreeMap.insert List.filter fst].
  - rewrite String.eqb_refl. reflexivity.
  - destruct (String.compare k k0) eqn:Hc; cbn [List.filter fst].
    + apply String.compare_eq_iff in Hc. subst k0.
      rewrite String.eqb_refl. reflexivity.
    + rewrite String.eqb_refl. reflexivity.
    + rewrite IH. reflexivity.
Qed.

(** Two distinct key literals are never equal. *)
Ltac distinct_keys :=
  match goal with
  | H : ?a = ?b |- _ =>
      unfold EVENT_TYPE_KEY, SCOPE_ADDRESS_KEY, TARGET_ACCOUNT_KEY, ACCESS_GRANT_ID_KEY in H;
      discriminate H
  | H : ?a <> ?a |- _ => exfalso; exact (H eq_refl)
  end.

(** ** Claims *)

(** C1: for every builder reachable through the public API (either
    constructor followed by any number of [with_access_grant_id] calls, in
    any order), [into_iter] yields the pairs with strictly ascending keys. *)
Theorem into_iter_keys_strictly_ascending (g : OsGatewayAttributeGenerator) :
  reachable g -> Sorted key_lt (map fst (Generator.into_iter g)).
Proof.
  induction 1 as [scope target|scope target|g id _ IH];
    unfold Generator.into_iter, BTreeMap.into_iter in *; cbn [attributes];
    repeat apply btree_insert_sorted; try exact IH; constructor.
Qed.

Lemma into_iter_keys_strictly_ascending_witness :
  reachable (Generator.with_access_grant_id (Generator.access_revoke "" "tp1") "id") /\
  Sorted key_lt (map fst (Generator.into_iter
    (Generator.with_access_grant_id (Generator.access_revoke "" "tp1") "id"))).
Proof.
  split.
  - constructor. constructor.
  - apply into_iter_keys_strictly_ascending. constructor. constructor.
Defined.

(** C2: [access_grant scope target] finalizes to exactly the three pairs
    (event type, "access_grant"), (scope address, scope) and (target
    account, target); [access_revoke] to the same with "access_revoke". *)
Theorem access_grant_revoke_into_iter (scope target : string) :
  Generator.into_iter (Generator.access_grant scope target) =
    [(EVENT_TYPE_KEY, "access_grant"); (SCOPE_ADDRESS_KEY, scope); (TARGET_ACCOUNT_KEY, target)] /\
  Generator.into_iter (Generator.access_revoke scope target) =
    [(EVENT_TYPE_KEY, "access_revoke"); (SCOPE_ADDRESS_KEY, scope); (TARGET_ACCOUNT_KEY, target)].
Proof. split; reflexivity. Qed.

(** C3: one [with_access_grant_id id] call on a fresh builder gives exactly
    four pairs with the access grant id pair equal to [id]; a second call
    with [id2] gives four pairs keeping only [id2]; on every builder state
    two calls equal the last call alone (so repeating an id is idempotent). *)
Theorem with_access_grant_id_overwrites :
  (forall kind scope target id,
     let out := Generator.into_iter
                  (Generator.with_access_grant_id (construct kind scope target) id) in
     length out = 4 /\ In (ACCESS_GRANT_ID_KEY, id) out /\
     out = [(ACCESS_GRANT_ID_KEY, id); (EVENT_TYPE_KEY, event_value kind);
            (SCOPE_ADDRESS_KEY, scope); (TARGET_ACCOUNT_KEY, target)]) /\
  (forall kind scope target id1 id2,
     Generator.into_iter (Generator.with_access_grant_id
       (Generator.with_access_grant_id (construct kind scope target) id1) id2) =
     [(ACCESS_GRANT_ID_KEY, id2); (EVENT_TYPE_KEY, event_value kind);
      (SCOPE_ADDRESS_KEY, scope); (TARGET_ACCOUNT_KEY, target)]) /\
  (forall g id1 id2,
     Generator.with_access_grant_id (Generator.with_access_grant_id g id1) id2 =
     Generator.with_access_grant_id g id2) /\
  (forall g id,
     Generator.with_access_grant_id (Generator.with_access_grant_id g id) id =
     Generator.with_access_grant_id g id).
Proof.
  split; [|split; [|split]].
  - intros kind scope target id out. subst out.
    change (Generator.with_access_grant_id (construct kind scope target) id)
      with (generate kind scope target (Some id)).
    rewrite generate_into_iter. cbn. split; [reflexivity|]. split; [left; reflexivity|reflexivity].
  - intros kind scope target id1 id2. rewrite with_access_grant_id_twice.
    apply (generate_into_iter kind scope target (Some id2)).
  - apply with_access_grant_id_twice.
  - intros g id. apply with_access_grant_id_twice.
Qed.

(** C4: determinism. The ordered output depends only on the constructor,
    the scope and target strings and the optional access grant id (the last
    one supplied, or its absence): two builders built from the same such
    inputs, by any call histories, finalize to the same ordered sequence,
    namely the one given by [generate]. *)
Theorem into_iter_deterministic (kind : EventKind) (scope target : string)
    (ids1 ids2 : list string) :
  last_id ids1 = last_id ids2 ->
  Generator.into_iter (build kind scope target ids1) =
  Generator.into_iter (build kind scope target ids2) /\
  Generator.into_iter (build kind scope target ids1) =
  Generator.into_iter (generate kind scope target (last_id ids1)).
Proof.
  intros Hlast. rewrite !build_generate, Hlast. split; reflexivity.
Qed.

Lemma into_iter_deterministic_witness :
  last_id ["a"; "b"] = last_id ["b"] /\
  Generator.into_iter (build AccessGrant "scope" "target" ["a"; "b"]) =
  Generator.into_iter (build AccessGrant "scope" "target" ["b"]) /\
  Generator.into_iter (build AccessGrant "scope" "target" ["a"; "b"]) =
  Generator.into_iter (generate AccessGrant "scope" "target" (last_id ["a"; "b"])).
Proof.
  split; [reflexivity|].
  apply (into_iter_deterministic AccessGrant "scope" "target" ["a"; "b"] ["b"]).
  reflexivity.
Defined.

(** C5: the key literals of [attribute_consts.rs] and [OS_GATEWAY_KEYS]
    are the four wire strings and the event-type literals are
    "access_grant" and "access_revoke"; every builder of either
    implementation, after any public call sequence, holds only those four
    keys and stores only one of the two event-type literals. *)
Theorem wire_literals_fixed :
  EVENT_TYPE_KEY = "object_store_gateway_event_type" /\
  SCOPE_ADDRESS_KEY = "object_store_gateway_scope_address" /\
  TARGET_ACCOUNT_KEY = "object_store_gateway_target_account_address" /\
  ACCESS_GRANT_ID_KEY = "object_store_gateway_access_grant_id" /\
  ACCESS_GRANT_VALUE = "access_grant" /\ ACCESS_REVOKE_VALUE = "access_revoke" /\
  OS_GATEWAY_KEYS = {| event_type := EVENT_TYPE_KEY; scope_address := SCOPE_ADDRESS_KEY;
                       target_account := TARGET_ACCOUNT_KEY;
                       access_grant_id := ACCESS_GRANT_ID_KEY |} /\
  OS_GATEWAY_EVENT_TYPES = {| access_grant := ACCESS_GRANT_VALUE;
                              access_revoke := ACCESS_REVOKE_VALUE |} /\
  (forall kind scope target ids,
     Forall (fun kv => os_gateway_key kv.1) (Generator.into_iter (build kind scope target ids)) /\
     (forall ev, BTreeMap.get EVENT_TYPE_KEY (attributes (build kind scope target ids)) = Some ev ->
                 event_type_value ev)) /\
  (forall kind scope target ids,
     (forall k v, hattributes (build_lib kind scope target ids) !! k = Some v ->
                  os_gateway_key k) /\
     (forall ev, hattributes (build_lib kind scope target ids) !! EVENT_TYPE_KEY = Some ev ->
                 event_type_value ev)).
Proof.
  do 8 (split; [reflexivity|]). split.
  - intros kind scope target ids.
    pose proof (generate_into_iter kind scope target (last_id ids)) as Hout.
    rewrite <- build_generate in Hout.
    pose proof Hout as Hattr. unfold Generator.into_iter, BTreeMap.into_iter in Hattr.
    rewrite Hout, Hattr.
    split.
    + destruct (last_id ids); cbn;
        repeat (apply List.Forall_cons; [unfold os_gateway_key; cbn; tauto|]);
        apply List.Forall_nil.
    + intros ev. destruct (last_id ids); cbn; intros [= <-]; destruct kind; cbn;
        unfold event_type_value; tauto.
  - intros kind scope target ids.
    rewrite build_lib_build.
    pose proof (generate_into_iter kind scope target (last_id ids)) as Hout.
    rewrite <- build_generate in Hout.
    unfold Generator.into_iter, BTreeMap.into_iter in Hout. rewrite Hout.
    split.
    + intros k v. destruct (last_id ids); cbn; rewrite !lookup_insert;
        repeat case_decide; subst; unfold os_gateway_key; try tauto;
        rewrite lookup_empty; discriminate.
    + intros ev. destruct (last_id ids); cbn; rewrite !lookup_insert;
        repeat case_decide; try distinct_keys; intros [= <-];
        destruct kind; unfold event_type_value; cbn; tauto.
Qed.

(** C6: the access grant id pair is present in the finalized sequence
    exactly when [with_access_grant_id] was called at least once; otherwise
    no pair with that key appears (no empty or placeholder entry). *)
Theorem access_grant_id_present_iff_supplied (kind : EventKind) (scope target : string)
    (ids : list string) :
  In ACCESS_GRANT_ID_KEY (map fst (Generator.into_iter (build kind scope target ids))) <->
  ids <> [].
Proof.
  rewrite build_generate, generate_into_iter.
  destruct (last_id ids) as [id|] eqn:Hl.
  - split; [intros _ Hnil; subst ids; discriminate|intros _; left; reflexivity].
  - apply last_id_None in Hl. subst ids. split; [|intros H; congruence].
    cbn. intros [H|[H|[H|[]]]]; distinct_keys.
Qed.

(** C7: every builder reachable through the public API has exactly one
    event-type entry, whose value is "access_grant" or "access_revoke", has
    the scope-address and target-account entries, has pairwise distinct
    keys drawn from the four key literals only (the access grant id being
    the only optional one), and so finalizes to exactly 3 or 4 pairs. *)
Theorem reachable_attribute_set_invariant (g : OsGatewayAttributeGenerator) :
  reachable g ->
  let out := Generator.into_iter g in
  (exists ev, In (EVENT_TYPE_KEY, ev) out /\ event_type_value ev) /\
  length (filter (fun k => k = EVENT_TYPE_KEY) (map fst out)) = 1 /\
  In SCOPE_ADDRESS_KEY (map fst out) /\ In TARGET_ACCOUNT_KEY (map fst out) /\
  NoDup (map fst out) /\
  Forall os_gateway_key (map fst out) /\
  (length out = 3 /\ ~ In ACCESS_GRANT_ID_KEY (map fst out) \/
   length out = 4 /\ In ACCESS_GRANT_ID_KEY (map fst out)).
Proof.
  intros Hr out. subst out.
  apply reachable_build in Hr as (kind & scope & target & ids & ->).
  pose proof (build_keys_NoDup kind scope target ids) as Hnd.
  rewrite build_generate, generate_into_iter in *.
  split; [|split; [|split; [|split; [|split; [exact Hnd|split]]]]].
  - exists (event_value kind). split.
    + apply in_or_app. right. left. reflexivity.
    + destruct kind; unfold event_type_value; cbn; tauto.
  - destruct (last_id ids); reflexivity.
  - destruct (last_id ids); cbn; tauto.
  - destruct (last_id ids); cbn; tauto.
  - destruct (last_id ids); cbn;
      repeat (apply List.Forall_cons; [unfold os_gateway_key; tauto|]);
      apply List.Forall_nil.
  - destruct (last_id ids); cbn.
    + right. split; [reflexivity|left; reflexivity].
    + left. split; [reflexivity|]. intros [H|[H|[H|[]]]]; distinct_keys.
Qed.

Lemma reachable_attribute_set_invariant_witness :
  reachable (Generator.access_grant "scope1qzn7" "tp12vu3ww5") /\
  let out := Generator.into_iter (Generator.access_grant "scope1qzn7" "tp12vu3ww5") in
  (exists ev, In (EVENT_TYPE_KEY, ev) out /\ event_type_value ev) /\
  length (filter (fun k => k = EVENT_TYPE_KEY) (map fst out)) = 1 /\
  In SCOPE_ADDRESS_KEY (map fst out) /\ In TARGET_ACCOUNT_KEY (map fst out) /\
  NoDup (map fst out) /\
  Forall os_gateway_key (map fst out) /\
  (length out = 3 /\ ~ In ACCESS_GRANT_ID_KEY (map fst out) \/
   length out = 4 /\ In ACCESS_GRANT_ID_KEY (map fst out)).
Proof.
  split; [constructor|].
  apply reachable_attribute_set_invariant. constructor.
Defined.

(** C8: every public operation is total: for all inputs, including empty
    strings, the [BTreeMap] builder finalizes to a complete sequence of 3
    pairs (no id supplied) or 4 pairs (some id supplied), and the [HashMap]
    builder has an iteration order, so finalization always produces a
    sequence. *)
Theorem operations_total (kind : EventKind) (scope target : string) (ids : list string) :
  length (Generator.into_iter (build kind scope target ids)) =
    (match ids with [] => 3 | _ :: _ => 4 end) /\
  exists out, EventAttributes.into_iter (build_lib kind scope target ids) out.
Proof.
  split.
  - rewrite build_generate, generate_into_iter.
    destruct ids as [|id ids]; [reflexivity|].
    rewrite last_id_cons. destruct (last_id ids); reflexivity.
  - exists (map_to_list (hattributes (build_lib kind scope target ids))).
    unfold EventAttributes.into_iter. reflexivity.
Qed.

(** C9: for every constructor, scope, target and sequence of access grant
    ids, every iteration order of the [HashMap]-based
    [OsGatewayEventAttributes] is a permutation of the [BTreeMap]-based
    [OsGatewayAttributeGenerator]'s output, so both are the same key/value
    map; the [HashMap] variant admits an iteration whose keys are not in
    ascending order, which the [BTreeMap] variant never produces. *)
Theorem lib_and_generator_same_map :
  (forall kind scope target ids out,
     EventAttributes.into_iter (build_lib kind scope target ids) out ->
     out ≡ₚ Generator.into_iter (build kind scope target ids) /\
     (list_to_map out : gmap string string) =
       list_to_map (Generator.into_iter (build kind scope target ids))) /\
  (exists out,
     EventAttributes.into_iter (build_lib AccessGrant "scope" "target" []) out /\
     ~ Sorted key_lt (map fst out)).
Proof.
  split.
  - intros kind scope target ids out Hout.
    unfold EventAttributes.into_iter in Hout. rewrite build_lib_build in Hout.
    pose proof (build_keys_NoDup kind scope target ids) as Hnd.
    assert (Hp : out ≡ₚ Generator.into_iter (build kind scope target ids)).
    { rewrite Hout. apply map_to_list_to_map. exact Hnd. }
    split; [exact Hp|].
    symmetry. apply list_to_map_proper; [exact Hnd|]. symmetry. exact Hp.
  - exists (rev (Generator.into_iter (build AccessGrant "scope" "target" []))).
    split.
    + unfold EventAttributes.into_iter. rewrite build_lib_build.
      rewrite map_to_list_to_map by apply build_keys_NoDup.
      apply Permutation_rev.
    + cbn. intros Hs. apply Sorted_inv in Hs as [_ Hhd].
      inversion Hhd as [|? ? Hlt]. discriminate Hlt.
Qed.

Lemma lib_and_generator_same_map_witness :
  EventAttributes.into_iter (build_lib AccessRevoke "scope" "target" ["id"])
    (map_to_list (hattributes (build_lib AccessRevoke "scope" "target" ["id"]))) /\
  map_to_list (hattributes (build_lib AccessRevoke "scope" "target" ["id"])) ≡ₚ
    Generator.into_iter (build AccessRevoke "scope" "target" ["id"]).
Proof.
  split; [unfold EventAttributes.into_iter; reflexivity|].
  apply (proj1 lib_and_generator_same_map AccessRevoke "scope" "target" ["id"]).
  unfold EventAttributes.into_iter. reflexivity.
Defined.

(** C10: [with_access_grant_id] changes only the access grant id entry: on
    every builder state the entries under every other key, and their order,
    are the same before and after the call. *)
Theorem with_access_grant_id_frame (g : OsGatewayAttributeGenerator) (id : string) :
  List.filter (fun kv : string * string => negb (String.eqb kv.1 ACCESS_GRANT_ID_KEY))
    (Generator.into_iter (Generator.with_access_grant_id g id)) =
  List.filter (fun kv : string * string => negb (String.eqb kv.1 ACCESS_GRANT_ID_KEY))
    (Generator.into_iter g) /\
  (forall k, k <> ACCESS_GRANT_ID_KEY ->
     BTreeMap.get k (attributes (Generator.with_access_grant_id g id)) =
     BTreeMap.get k (attributes g)).
Proof.
  split.
  - apply btree_insert_filter.
  - intros k Hk. cbn [Generator.with_access_grant_id Generator.insert_attribute attributes].
    rewrite btree_insert_get. apply String.eqb_neq in Hk. rewrite Hk. reflexivity.
Qed.

Lemma with_access_grant_id_frame_witness :
  SCOPE_ADDRESS_KEY <> ACCESS_GRANT_ID_KEY /\
  BTreeMap.get SCOPE_ADDRESS_KEY
    (attributes (Generator.with_access_grant_id (Generator.access_grant "s" "t") "id")) =
  BTreeMap.get SCOPE_ADDRESS_KEY (attributes (Generator.access_grant "s" "t")).
Proof.
  split; [discriminate|].
  apply (proj2 (with_access_grant_id_frame (Generator.access_grant "s" "t") "id")).
  discriminate.
Defined.

Lemma wire_literals_fixed_witness :
  BTreeMap.get EVENT_TYPE_KEY (attributes (build AccessRevoke "" "" ["g1"; "g2"])) =
    Some "access_revoke" /\
  event_type_value "access_revoke".
Proof.
  split; [reflexivity|].
  destruct wire_literals_fixed as (_ & _ & _ & _ & _ & _ & _ & _ & Hgen & _).
  apply (proj2 (Hgen AccessRevoke "" "" ["g1"; "g2"])).
  reflexivity.
Defined.

Lemma access_grant_id_present_iff_supplied_witness :
  In ACCESS_GRANT_ID_KEY (map fst (Generator.into_iter (build AccessGrant "s" "t" ["id"]))) /\
  ~ In ACCESS_GRANT_ID_KEY (map fst (Generator.into_iter (build AccessGrant "s" "t" []))).
Proof.
  split.
  - apply (access_grant_id_present_iff_supplied AccessGrant "s" "t" ["id"]). discriminate.
  - rewrite (access_grant_id_present_iff_supplied AccessGrant "s" "t" []).
    intros H. apply H. reflexivity.
Defined.

(** ** Further properties of [insert_attribute], the [BTreeMap] state and
    the [HashMap]-based builder *)

Lemma string_lt_trans (a b c : string) : key_lt a b -> key_lt b c -> key_lt a c.
Proof.
  unfold key_lt. revert b c.
  induction a as [|x a IH]; intros [|y b] [|z c]; cbn; try discriminate; try reflexivity.
  intros Hab Hbc.
  destruct (Ascii.compare x y) eqn:Exy; try discriminate;
    destruct (Ascii.compare y z) eqn:Eyz; try discriminate.
  - apply Ascii.compare_eq_iff in Exy, Eyz. subst.
    unfold Ascii.compare. rewrite N.compare_refl. exact (IH _ _ Hab Hbc).
  - apply Ascii.compare_eq_iff in Exy. subst. rewrite Eyz. reflexivity.
  - apply Ascii.compare_eq_iff in Eyz. subst. rewrite Exy. reflexivity.
  - unfold Ascii.compare in *. rewrite N.compare_lt_iff in Exy, Eyz.
    assert (Exz : N.compare (Ascii.N_of_ascii x) (Ascii.N_of_ascii z) = Lt)
      by (apply N.compare_lt_iff; lia).
    rewrite Exz. reflexivity.
Qed.

Lemma key_lt_irrefl (a : string) : ~ key_lt a a.
Proof. unfold key_lt. rewrite string_compare_refl. discriminate. Qed.

Lemma key_lt_asym (a b : string) : key_lt a b -> ~ key_lt b a.
Proof.
  unfold key_lt. intros H. rewrite String.compare_antisym, H. discriminate.
Qed.

Lemma btree_get_In (k v : string) (m : BTreeMap.t) :
  BTreeMap.get k m = Some v -> In k (map fst m).
Proof.
  induction m as [|[k0 v0] rest IH]; cbn; [discriminate|].
  destruct (String.eqb_spec k k0); [subst; left; reflexivity|].
  intros H. right. exact (IH H).
Qed.

Lemma btree_get_not_In (k : string) (m : BTreeMap.t) :
  ~ In k (map fst m) -> BTreeMap.get k m = None.
Proof.
  intros Hn. destruct (BTreeMap.get k m) eqn:E; [|reflexivity].
  exfalso. exact (Hn (btree_get_In _ _ _ E)).
Qed.

Lemma sorted_strongly (m : BTreeMap.t) :
  Sorted key_lt (map fst m) -> StronglySorted key_lt (map fst m).
Proof.
  apply Sorted_StronglySorted. intros a b c. apply string_lt_trans.
Qed.

(** A strictly sorted association list is determined by its lookups. *)
Lemma btree_sorted_ext (m1 m2 : BTreeMap.t) :
  Sorted key_lt (map fst m1) -> Sorted key_lt (map fst m2) ->
  (forall k, BTreeMap.get k m1 = BTreeMap.get k m2) -> m1 = m2.
Proof.
  intros S1 S2. apply sorted_strongly in S1, S2. revert m2 S2.
  induction m1 as [|[a x] r1 IH]; intros [|[b y] r2] S2 Hget.
  - reflexivity.
  - specialize (Hget b). cbn in Hget. rewrite String.eqb_refl in Hget. discriminate.
  - specialize (Hget a). cbn in Hget. rewrite String.eqb_refl in Hget. discriminate.
  - cbn [map fst] in S1, S2.
    apply StronglySorted_inv in S1 as [S1 F1]. apply StronglySorted_inv in S2 as [S2 F2].
    rewrite List.Forall_forall in F1, F2.
    assert (Hab : a = b).
    { destruct (String.eqb_spec a b) as [|Hne]; [assumption|exfalso].
      pose proof (Hget a) as Ha. pose proof (Hget b) as Hb. cbn in Ha, Hb.
      rewrite String.eqb_refl in Ha, Hb.
      apply String.eqb_neq in Hne as Hne'. rewrite Hne' in Ha.
      rewrite String.eqb_sym, Hne' in Hb.
      apply (key_lt_asym a b).
      - apply F1. exact (btree_get_In _ _ _ Hb).
      - apply F2. exact (btree_get_In _ _ _ (eq_sym Ha)). }
    subst b.
    pose proof (Hget a) as Ha. cbn in Ha. rewrite String.eqb_refl in Ha. injection Ha as <-.
    f_equal. apply IH; [exact S1|exact S2|].
    intros k. specialize (Hget k). cbn in Hget.
    destruct (String.eqb_spec k a) as [Hk|]; [|exact Hget].
    subst k. rewrite !btree_get_not_In; [reflexivity| |].
    + intros Hin. exact (key_lt_irrefl a (F2 a Hin)).
    + intros Hin. exact (key_lt_irrefl a (F1 a Hin)).
Qed.

Lemma btree_insert_keys (k v x : string) (m : BTreeMap.t) :
  In x (map fst (BTreeMap.insert k v m)) <-> k = x \/ In x (map fst m).
Proof.
  induction m as [|[k0 v0] rest IH]; cbn [BTreeMap.insert map fst]; [cbn; tauto|].
  destruct (String.compare k k0) eqn:Hc; cbn [map fst In].
  - apply String.compare_eq_iff in Hc. subst k0. tauto.
  - tauto.
  - rewrite IH. tauto.
Qed.

Lemma list_to_map_get (m : BTreeMap.t) (k : string) :
  (list_to_map m : gmap string string) !! k = BTreeMap.get k m.
Proof.
  induction m as [|[k0 v0] rest IH]; cbn [BTreeMap.get]; [apply lookup_empty|].
  rewrite list_to_map_cons, lookup_insert.
  destruct (String.eqb_spec k k0) as [->|Hne].
  - rewrite decide_True; reflexivity.
  - rewrite decide_False by congruence. exact IH.
Qed.

(** X1: [insert_attribute] stores the value under its key and leaves the
    lookup of every other key unchanged, on every builder state. *)
Theorem insert_attribute_get (g : OsGatewayAttributeGenerator) (k v : string) :
  BTreeMap.get k (attributes (Generator.insert_attribute g k v)) = Some v /\
  (forall k', k' <> k ->
     BTreeMap.get k' (attributes (Generator.insert_attribute g k v)) =
     BTreeMap.get k' (attributes g)).
Proof.
  cbn [Generator.insert_attribute attributes]. split.
  - rewrite btree_insert_get, String.eqb_refl. reflexivity.
  - intros k' Hne. rewrite btree_insert_get. apply String.eqb_neq in Hne. rewrite Hne. reflexivity.
Qed.

Lemma insert_attribute_get_witness :
  SCOPE_ADDRESS_KEY <> EVENT_TYPE_KEY /\
  BTreeMap.get SCOPE_ADDRESS_KEY
    (attributes (Generator.insert_attribute (Generator.access_grant "s" "t") EVENT_TYPE_KEY "x")) =
  BTreeMap.get SCOPE_ADDRESS_KEY (attributes (Generator.access_grant "s" "t")).
Proof.
  split; [discriminate|].
  apply (proj2 (insert_attribute_get (Generator.access_grant "s" "t") EVENT_TYPE_KEY "x")).
  discriminate.
Defined.

(** X2: the keys emitted after [insert_attribute g k v] are exactly [k]
    together with the keys emitted for [g]. *)
Theorem insert_attribute_keys (g : OsGatewayAttributeGenerator) (k v x : string) :
  In x (map fst (Generator.into_iter (Generator.insert_attribute g k v))) <->
  k = x \/ In x (map fst (Generator.into_iter g)).
Proof. apply btree_insert_keys. Qed.

(** X3: [insert_attribute] keeps the keys of any builder state strictly
    ascending, whatever key it inserts. *)
Theorem insert_attribute_sorted (g : OsGatewayAttributeGenerator) (k v : string) :
  Sorted key_lt (map fst (Generator.into_iter g)) ->
  Sorted key_lt (map fst (Generator.into_iter (Generator.insert_attribute g k v))).
Proof. apply btree_insert_sorted. Qed.

Lemma insert_attribute_sorted_witness :
  Sorted key_lt (map fst (Generator.into_iter (Generator.access_revoke "s" "t"))) /\
  Sorted key_lt (map fst (Generator.into_iter
    (Generator.insert_attribute (Generator.access_revoke "s" "t") "zzz" "v"))).
Proof.
  assert (H : Sorted key_lt (map fst (Generator.into_iter (Generator.access_revoke "s" "t"))))
    by (repeat constructor).
  split; [exact H|]. exact (insert_attribute_sorted _ "zzz" "v" H).
Defined.

(** X4: on a builder state with strictly ascending keys, [insert_attribute]
    grows the map ([attributes.len()]) by one when the key is new and keeps
    its length when the key is already present. *)
Theorem insert_attribute_len (g : OsGatewayAttributeGenerator) (k v : string) :
  Sorted key_lt (map fst (Generator.into_iter g)) ->
  BTreeMap.len (attributes (Generator.insert_attribute g k v)) =
  BTreeMap.len (attributes g) +
    match BTreeMap.get k (attributes g) with Some _ => 0 | None => 1 end.
Proof.
  destruct g as [m]. unfold Generator.into_iter, BTreeMap.into_iter, BTreeMap.len.
  cbn [Generator.insert_attribute attributes].
  intros Hs. apply sorted_strongly in Hs. revert Hs.
  induction m as [|[k0 v0] rest IH]; intros Hs; [reflexivity|].
  cbn [map fst] in Hs. apply StronglySorted_inv in Hs as [Hs Hf].
  rewrite List.Forall_forall in Hf.
  cbn [BTreeMap.insert BTreeMap.get].
  destruct (String.compare k k0) eqn:Hc.
  - apply String.compare_eq_iff in Hc. subst k0. rewrite String.eqb_refl. cbn. lia.
  - assert (Hne : k <> k0) by (intros ->; rewrite string_compare_refl in Hc; discriminate).
    apply String.eqb_neq in Hne as Hne'. rewrite Hne'.
    rewrite btree_get_not_In; [cbn; lia|].
    intros Hin. apply (key_lt_irrefl k). eapply string_lt_trans; [exact Hc|]. exact (Hf k Hin).
  - assert (Hne : k <> k0) by (intros ->; rewrite string_compare_refl in Hc; discriminate).
    apply String.eqb_neq in Hne as Hne'. rewrite Hne'.
    cbn [length]. rewrite (IH Hs). lia.
Qed.

Lemma insert_attribute_len_witness :
  Sorted key_lt (map fst (Generator.into_iter (Generator.access_grant "s" "t"))) /\
  BTreeMap.len (attributes (Generator.insert_attribute (Generator.access_grant "s" "t")
                              ACCESS_GRANT_ID_KEY "id")) =
  BTreeMap.len (attributes (Generator.access_grant "s" "t")) +
    match BTreeMap.get ACCESS_GRANT_ID_KEY (attributes (Generator.access_grant "s" "t")) with
    | Some _ => 0 | None => 1 end.
Proof.
  assert (H : Sorted key_lt (map fst (Generator.into_iter (Generator.access_grant "s" "t"))))
    by (repeat constructor).
  split; [exact H|]. exact (insert_attribute_len _ ACCESS_GRANT_ID_KEY "id" H).
Defined.

(** X5: two builder states with strictly ascending keys that agree on the
    lookup of every key finalize to the same ordered sequence: the output
    depends only on the map's contents, not on how it was built. *)
Theorem into_iter_determined_by_contents (g1 g2 : OsGatewayAttributeGenerator) :
  Sorted key_lt (map fst (Generator.into_iter g1)) ->
  Sorted key_lt (map fst (Generator.into_iter g2)) ->
  (forall k, BTreeMap.get k (attributes g1) = BTreeMap.get k (attributes g2)) ->
  Generator.into_iter g1 = Generator.into_iter g2.
Proof.
  destruct g1 as [m1], g2 as [m2]. unfold Generator.into_iter, BTreeMap.into_iter. cbn.
  apply btree_sorted_ext.
Qed.

Lemma into_iter_determined_by_contents_witness :
  let g1 := Generator.with_access_grant_id (Generator.access_grant "s" "t") "id" in
  let g2 := Generator.with_event_type
              (Generator.with_target_account_address
                 (Generator.with_scope_address
                    (Generator.with_access_grant_id Generator.new "id") "s") "t")
              ACCESS_GRANT_VALUE in
  Generator.into_iter g1 = Generator.into_iter g2.
Proof.
  intros g1 g2.
  apply into_iter_determined_by_contents; [repeat constructor | repeat constructor |].
  intros k. subst g1 g2.
  cbn [Generator.with_access_grant_id Generator.with_event_type Generator.with_scope_address
       Generator.with_target_account_address Generator.access_grant Generator.insert_attribute
       Generator.new attributes].
  rewrite !btree_insert_get. cbn [BTreeMap.get BTreeMap.new].
  destruct (String.eqb k ACCESS_GRANT_ID_KEY) eqn:E1,
           (String.eqb k EVENT_TYPE_KEY) eqn:E2,
           (String.eqb k SCOPE_ADDRESS_KEY) eqn:E3,
           (String.eqb k TARGET_ACCOUNT_KEY) eqn:E4; try reflexivity;
    apply String.eqb_eq in E1 || apply String.eqb_eq in E2 || idtac;
    subst; discriminate.
Defined.

(** X6: on a builder state with strictly ascending keys, two
    [insert_attribute] calls with distinct keys commute, so the order of the
    private setters in [access_grant] and [access_revoke] does not matter. *)
Theorem insert_attribute_commute (g : OsGatewayAttributeGenerator) (k1 v1 k2 v2 : string) :
  Sorted key_lt (map fst (Generator.into_iter g)) -> k1 <> k2 ->
  Generator.insert_attribute (Generator.insert_attribute g k1 v1) k2 v2 =
  Generator.insert_attribute (Generator.insert_attribute g k2 v2) k1 v1.
Proof.
  destruct g as [m]. unfold Generator.into_iter, BTreeMap.into_iter, Generator.insert_attribute.
  cbn [attributes]. intros Hs Hne. f_equal.
  apply btree_sorted_ext; [apply btree_insert_sorted, btree_insert_sorted, Hs
                         |apply btree_insert_sorted, btree_insert_sorted, Hs|].
  intros k. rewrite !btree_insert_get.
  destruct (String.eqb_spec k k1), (String.eqb_spec k k2); subst; try reflexivity.
  congruence.
Qed.

Lemma insert_attribute_commute_witness :
  Sorted key_lt (map fst (Generator.into_iter Generator.new)) /\
  SCOPE_ADDRESS_KEY <> EVENT_TYPE_KEY /\
  Generator.insert_attribute (Generator.insert_attribute Generator.new SCOPE_ADDRESS_KEY "s")
    EVENT_TYPE_KEY ACCESS_GRANT_VALUE =
  Generator.insert_attribute (Generator.insert_attribute Generator.new EVENT_TYPE_KEY
    ACCESS_GRANT_VALUE) SCOPE_ADDRESS_KEY "s".
Proof.
  assert (H : Sorted key_lt (map fst (Generator.into_iter Generator.new))) by constructor.
  split; [exact H|]. split; [discriminate|].
  apply insert_attribute_commute; [exact H|discriminate].
Defined.

(** X7: on a builder state with strictly ascending keys, a pair [(k, v)]
    is emitted by [into_iter] exactly when the map holds [v] under [k]; in
    particular the first emitted pair with key [k] carries the map's value. *)
Theorem into_iter_In_iff_get (g : OsGatewayAttributeGenerator) (k v : string) :
  Sorted key_lt (map fst (Generator.into_iter g)) ->
  (In (k, v) (Generator.into_iter g) <-> BTreeMap.get k (attributes g) = Some v).
Proof.
  destruct g as [m]. unfold Generator.into_iter, BTreeMap.into_iter. cbn [attributes].
  intros Hs. apply sorted_strongly in Hs. revert Hs.
  induction m as [|[k0 v0] rest IH]; intros Hs; [cbn; split; [tauto|discriminate]|].
  cbn [map fst] in Hs. apply StronglySorted_inv in Hs as [Hs Hf].
  rewrite List.Forall_forall in Hf.
  cbn [In BTreeMap.get].
  destruct (String.eqb_spec k k0) as [->|Hne]; [|rewrite <- (IH Hs)].
  - split.
    + intros [[=->]|Hin]; [reflexivity|].
      exfalso. apply (key_lt_irrefl k0), Hf. exact (in_map fst _ _ Hin).
    + intros [=->]. left. reflexivity.
  - split; [intros [[=]|Hin]; [congruence|exact Hin]|intros Hin; right; exact Hin].
Qed.

Lemma into_iter_In_iff_get_witness :
  Sorted key_lt (map fst (Generator.into_iter (Generator.access_grant "s" "t"))) /\
  In (SCOPE_ADDRESS_KEY, "s") (Generator.into_iter (Generator.access_grant "s" "t")).
Proof.
  assert (H : Sorted key_lt (map fst (Generator.into_iter (Generator.access_grant "s" "t"))))
    by (repeat constructor).
  split; [exact H|]. apply (into_iter_In_iff_get _ SCOPE_ADDRESS_KEY "s" H). reflexivity.
Defined.

(** X8: in the [HashMap]-based builder, [with_access_grant_id] stores its
    id, a second call replaces the first one, and the lookup of every other
    key is unchanged, on every builder state. *)
Theorem lib_with_access_grant_id_overwrite_frame (e : OsGatewayEventAttributes) (id1 id2 : string) :
  hattributes (EventAttributes.with_access_grant_id e id1) !! ACCESS_GRANT_ID_KEY = Some id1 /\
  EventAttributes.with_access_grant_id (EventAttributes.with_access_grant_id e id1) id2 =
    EventAttributes.with_access_grant_id e id2 /\
  (forall k, k <> ACCESS_GRANT_ID_KEY ->
     hattributes (EventAttributes.with_access_grant_id e id1) !! k = hattributes e !! k).
Proof.
  unfold EventAttributes.with_access_grant_id, EventAttributes.insert_attribute. cbn [hattributes].
  split; [apply lookup_insert_eq|split].
  - rewrite insert_insert_eq. reflexivity.
  - intros k Hk. apply lookup_insert_ne. congruence.
Qed.

Lemma lib_with_access_grant_id_overwrite_frame_witness :
  EVENT_TYPE_KEY <> ACCESS_GRANT_ID_KEY /\
  hattributes (EventAttributes.with_access_grant_id (EventAttributes.access_grant "s" "t") "a")
    !! EVENT_TYPE_KEY =
  hattributes (EventAttributes.access_grant "s" "t") !! EVENT_TYPE_KEY.
Proof.
  split; [discriminate|].
  apply (proj2 (proj2 (lib_with_access_grant_id_overwrite_frame
    (EventAttributes.access_grant "s" "t") "a" "b"))).
  discriminate.
Defined.

(** X9: after any public call sequence, the [HashMap]-based builder maps
    the event-type key to the constructor's literal, the scope and target
    keys to the given strings, the access grant id key to the last id
    supplied (nothing if none was), and holds no other key. *)
Theorem lib_build_contents (kind : EventKind) (scope target : string) (ids : list string) :
  let m := hattributes (build_lib kind scope target ids) in
  m !! EVENT_TYPE_KEY = Some (event_value kind) /\
  m !! SCOPE_ADDRESS_KEY = Some scope /\
  m !! TARGET_ACCOUNT_KEY = Some target /\
  m !! ACCESS_GRANT_ID_KEY = last_id ids /\
  (forall k, ~ os_gateway_key k -> m !! k = None).
Proof.
  intros m. subst m. rewrite build_lib_build, !list_to_map_get.
  pose proof (generate_into_iter kind scope target (last_id ids)) as Hout.
  rewrite <- build_generate in Hout. unfold Generator.into_iter, BTreeMap.into_iter in Hout.
  rewrite Hout.
  split; [|split; [|split; [|split]]];
    try (destruct (last_id ids); reflexivity).
  intros k Hk. unfold os_gateway_key in Hk. rewrite list_to_map_get.
  destruct (last_id ids); cbn [app BTreeMap.get];
    repeat match goal with
    | |- context [String.eqb k ?c] =>
        let E := fresh in
        destruct (String.eqb_spec k c) as [E|E]; [exfalso; apply Hk; subst; tauto|]
    end; reflexivity.
Qed.

(** X10: the [HashMap]-based builder ([attributes.len()]) holds 3 entries
    when no access grant id was supplied and 4 otherwise. *)
Theorem lib_build_size (kind : EventKind) (scope target : string) (ids : list string) :
  size (hattributes (build_lib kind scope target ids)) =
  match ids with [] => 3 | _ :: _ => 4 end.
Proof.
  rewrite build_lib_build, map_size_list_to_map by apply build_keys_NoDup.
  pose proof (generate_into_iter kind scope target (last_id ids)) as Hout.
  rewrite <- build_generate in Hout. unfold Generator.into_iter, BTreeMap.into_iter in Hout.
  rewrite Hout. destruct ids as [|id ids]; [reflexivity|].
  rewrite last_id_cons. destruct (last_id ids); reflexivity.
Qed.

Lemma lib_build_contents_witness :
  ~ os_gateway_key "other" /\
  hattributes (build_lib AccessRevoke "s" "t" ["a"; "b"]) !! "other" = None.
Proof.
  assert (H : ~ os_gateway_key "other")
    by (unfold os_gateway_key; intros [H|[H|[H|H]]]; discriminate H).
  split; [exact H|].
  destruct (lib_build_contents AccessRevoke "s" "t" ["a"; "b"]) as (_ & _ & _ & _ & Hnone).
  exact (Hnone "other" H).
Defined.
